(** * gokit: a go-kit string / host-identity service (src/main.go)

    The program wires two capabilities (StringService, OSInfoService) to
    three endpoints and three JSON-over-HTTP routes.  This development
    embeds the capability methods, the endpoint constructors and the
    per-route decode / encode functions, and settles the properties stated
    for them.

    Conventions of the embedding
    - a Go [string] is a byte sequence: Rocq's [string] (a list of 8-bit
      [ascii]); [len(s)] is [String.length];
    - a Go [error] value is a record carrying the text that [Error()]
      returns; a nil error is [None];
    - [interface{}] is the tagged union [any] of the dynamic types that
      flow through the program;
    - interface methods may have effects: they are state transformers over
      an arbitrary state type, so that statements about "not invoked" and
      "no state mutated" have content;
    - a failed single-value type assertion [x.(T)] panics: endpoint code
      lives in a state monad with a panic outcome;
    - functions of Go's standard library that the program calls
      ([strings.ToUpper], [json.Decoder.Decode]) are parameters, grouped in
      type classes. *)

From Stdlib Require Import String Ascii List ZArith Bool Lia.
Import ListNotations.
Local Open Scope string_scope.

(** ** Errors *)

(** [errors.New(text)]: an error whose [Error()] method returns [text]. *)
Record error : Type := errors_New { Error : string }.

(** src/main.go:51  [var ErrEmpty = errors.New("empty string")] *)
Definition ErrEmpty : error := errors_New "empty string".

(** [io.EOF], what a JSON decoder returns on an exhausted stream. *)
Definition io_EOF : error := errors_New "EOF".

(** ** Request and response envelopes (src/main.go:54-76) *)

Record uppercaseRequest : Type :=
  mk_uppercaseRequest { uppercaseRequest_S : string }.

Record uppercaseResponse : Type :=
  mk_uppercaseResponse { uppercaseResponse_V : string;
                         uppercaseResponse_Err : string }.

Record countRequest : Type :=
  mk_countRequest { countRequest_S : string }.

Record countResponse : Type :=
  mk_countResponse { countResponse_V : Z }.

Record hostnameRequest : Type := mk_hostnameRequest { }.

Record hostnameResponse : Type :=
  mk_hostnameResponse { hostnameResponse_V : string;
                        hostnameResponse_Err : string }.

(** [interface{}]: a value together with its dynamic type.  Besides the six
    envelope types, [any_string] and [any_int] stand for values of foreign
    dynamic types and [any_nil] for the nil interface. *)
Inductive any : Type :=
| any_nil
| any_uppercaseRequest (r : uppercaseRequest)
| any_uppercaseResponse (r : uppercaseResponse)
| any_countRequest (r : countRequest)
| any_countResponse (r : countResponse)
| any_hostnameRequest (r : hostnameRequest)
| any_hostnameResponse (r : hostnameResponse)
| any_string (s : string)
| any_int (n : Z).

(** ** Effects *)

(** What a call does: it returns a value or it panics. *)
Inductive outcome (A : Type) : Type :=
| Returned (a : A)
| Panicked (p : any * string).
Arguments Returned {A} a.
Arguments Panicked {A} p.

(** The run-time panic of a failed assertion [x.(T)]: the offending
    interface value and the name of the asserted type. *)
Definition TypeAssertionError (x : any) (T : string) : any * string := (x, T).

(** Capability methods: state transformers that return. *)
Definition Method (St A : Type) : Type := St -> A * St.

(** Endpoint code: state transformers that return or panic. *)
Definition M (St A : Type) : Type := St -> outcome A * St.

Definition ret {St A} (a : A) : M St A := fun st => (Returned a, st).

Definition panic {St A} (p : any * string) : M St A :=
  fun st => (Panicked p, st).

Definition bind {St A B} (c : M St A) (k : A -> M St B) : M St B :=
  fun st =>
    match c st with
    | (Returned a, st') => k a st'
    | (Panicked p, st') => (Panicked p, st')
    end.

Definition call {St A} (f : Method St A) : M St A :=
  fun st => let (a, st') := f st in (Returned a, st').

Declare Scope go_scope.
Delimit Scope go_scope with go.
Notation "x <- c ;; k" := (bind c (fun x => k))
  (at level 61, c at next level, right associativity) : go_scope.
Notation "' p <- c ;; k" := (bind c (fun x => let 'p := x in k))
  (at level 61, p pattern, c at next level, right associativity) : go_scope.
Local Open Scope go_scope.

(** [context.Context]; every function of the program ignores it. *)
Record Context : Type := mk_Context { ctx_Done : bool }.

(** ** Capabilities (src/main.go:16-48) *)

(** [type StringService interface] *)
Record StringService (St : Type) : Type := {
  Uppercase : string -> Method St (string * option error);
  Count : string -> Method St Z
}.
Arguments Uppercase {St} _ _ _.
Arguments Count {St} _ _ _.

(** [type OSInfoService interface] *)
Record OSInfoService (St : Type) : Type := {
  Hostname : Method St (string * option error)
}.
Arguments Hostname {St} _ _.

(** [strings.ToUpper] of Go's standard library: "returns s with all Unicode
    letters mapped to their upper case". *)
Class strings_pkg : Type := { strings_ToUpper : string -> string }.

(** The environment the process runs in: what the operating system's
    host-name lookup answers. *)
Record World : Type := mk_World { os_hostname : string * option error }.

(** [os.Hostname()]: reads the environment and leaves it as it is. *)
Definition os_Hostname : Method World (string * option error) :=
  fun w => (os_hostname w, w).

Section Capabilities.
Context {strings : strings_pkg}.

(** src/main.go:29-34 *)
Definition stringService_Uppercase {St} (s : string)
  : Method St (string * option error) :=
  fun st =>
    if String.eqb s "" then (("", Some ErrEmpty), st)
    else ((strings_ToUpper s, None), st).

(** src/main.go:36-38 *)
Definition stringService_Count {St} (s : string) : Method St Z :=
  fun st => (Z.of_nat (String.length s), st).

(** [stringService{}] as a [StringService] *)
Definition stringService {St} : StringService St :=
  {| Uppercase := stringService_Uppercase; Count := stringService_Count |}.

(** src/main.go:42-48 *)
Definition osInfoService_Hostname : Method World (string * option error) :=
  fun w =>
    let '((hostName, err), w) := os_Hostname w in
    match err with
    | Some _ => (("", Some ErrEmpty), w)
    | None => ((hostName, None), w)
    end.

(** [osInfoService{}] as an [OSInfoService] *)
Definition osInfoService : OSInfoService World :=
  {| Hostname := osInfoService_Hostname |}.
End Capabilities.

(** ** Endpoints (src/main.go:78-107) *)

(** [endpoint.Endpoint]:
    [func(ctx context.Context, request interface{}) (interface{}, error)] *)
Definition Endpoint (St : Type) : Type :=
  Context -> any -> M St (any * option error).

(** [request.(uppercaseRequest)] *)
Definition assert_uppercaseRequest {St} (request : any) : M St uppercaseRequest :=
  match request with
  | any_uppercaseRequest req => ret req
  | _ => panic (TypeAssertionError request "main.uppercaseRequest")
  end.

(** [request.(countRequest)] *)
Definition assert_countRequest {St} (request : any) : M St countRequest :=
  match request with
  | any_countRequest req => ret req
  | _ => panic (TypeAssertionError request "main.countRequest")
  end.

(** src/main.go:79-88 *)
Definition makeUppercaseEndpoint {St} (svc : StringService St) : Endpoint St :=
  fun _ request =>
    req <- assert_uppercaseRequest request ;;
    '(v, err) <- call (Uppercase svc (uppercaseRequest_S req)) ;;
    match err with
    | Some err =>
        ret (any_uppercaseResponse (mk_uppercaseResponse v (Error err)), None)
    | None =>
        ret (any_uppercaseResponse (mk_uppercaseResponse v ""), None)
    end.

(** src/main.go:90-96 *)
Definition makeCountEndpoint {St} (svc : StringService St) : Endpoint St :=
  fun _ request =>
    req <- assert_countRequest request ;;
    v <- call (Count svc (countRequest_S req)) ;;
    ret (any_countResponse (mk_countResponse v), None).

(** src/main.go:98-107; the assertion [request.(hostnameRequest)] is
    commented out in the source, so the request is never inspected. *)
Definition makeHostnameEndpoint {St} (svc : OSInfoService St) : Endpoint St :=
  fun _ _ =>
    '(v, err) <- call (Hostname svc) ;;
    match err with
    | Some err =>
        ret (any_hostnameResponse (mk_hostnameResponse v (Error err)), None)
    | None =>
        ret (any_hostnameResponse (mk_hostnameResponse v ""), None)
    end.

(** ** Transport binding (src/main.go:109-164) *)

(** A JSON document, as far as the program's envelopes need it. *)
#[warnings="-register-all"]
Inductive json : Type :=
| JNull
| JString (s : string)
| JNumber (n : Z)
| JObject (members : list (string * json)).

(** The member named [k] of a JSON object. *)
Fixpoint json_lookup (k : string) (members : list (string * json)) : option json :=
  match members with
  | [] => None
  | (k', v) :: rest => if String.eqb k k' then Some v else json_lookup k rest
  end.

Definition json_member (k : string) (doc : json) : option json :=
  match doc with
  | JObject members => json_lookup k members
  | _ => None
  end.

(** A field tagged [omitempty] is left out when it holds the empty string. *)
Definition omitempty (k : string) (s : string) : list (string * json) :=
  if String.eqb s "" then [] else [(k, JString s)].

(** What [encoding/json] emits for a value, following the struct tags of
    src/main.go:54-76 ([json:"s"], [json:"v"], [json:"err,omitempty"]). *)
Definition json_Marshal (v : any) : json :=
  match v with
  | any_nil => JNull
  | any_uppercaseRequest r => JObject [("s", JString (uppercaseRequest_S r))]
  | any_uppercaseResponse r =>
      JObject (("v", JString (uppercaseResponse_V r))
               :: omitempty "err" (uppercaseResponse_Err r))
  | any_countRequest r => JObject [("s", JString (countRequest_S r))]
  | any_countResponse r => JObject [("v", JNumber (countResponse_V r))]
  | any_hostnameRequest _ => JObject []
  | any_hostnameResponse r =>
      JObject (("v", JString (hostnameResponse_V r))
               :: omitempty "err" (hostnameResponse_Err r))
  | any_string s => JString s
  | any_int n => JNumber n
  end.

(** [*http.Request]: the program reads nothing but the body. *)
Record http_Request : Type := mk_http_Request { Body : string }.

(** [http.ResponseWriter]: the documents written so far. *)
Definition http_ResponseWriter : Type := list json.

(** [json.NewDecoder(body).Decode(&v)] of Go's standard library, one decoder
    per target type: the (possibly updated) target and the error.  The one
    law relied upon is that decoding from an exhausted stream reports
    [io.EOF]. *)
Class json_pkg : Type := {
  Decode_uppercaseRequest : string -> uppercaseRequest -> uppercaseRequest * option error;
  Decode_countRequest : string -> countRequest -> countRequest * option error;
  Decode_hostnameRequest : string -> hostnameRequest -> hostnameRequest * option error;
  Decode_hostnameRequest_EOF :
    forall v, snd (Decode_hostnameRequest "" v) = Some io_EOF
}.

(** [httptransport.DecodeRequestFunc] and [httptransport.EncodeResponseFunc] *)
Definition DecodeRequestFunc : Type := Context -> http_Request -> any * option error.
Definition EncodeResponseFunc : Type :=
  Context -> http_ResponseWriter -> any -> http_ResponseWriter * option error.

Section Transport.
Context {encoding_json : json_pkg}.

(** src/main.go:138-144 *)
Definition decodeUppercaseRequest : DecodeRequestFunc :=
  fun _ r =>
    let request := mk_uppercaseRequest "" in
    let (request, err) := Decode_uppercaseRequest (Body r) request in
    match err with
    | Some err => (any_nil, Some err)
    | None => (any_uppercaseRequest request, None)
    end.

(** src/main.go:146-152 *)
Definition decodeCountRequest : DecodeRequestFunc :=
  fun _ r =>
    let request := mk_countRequest "" in
    let (request, err) := Decode_countRequest (Body r) request in
    match err with
    | Some err => (any_nil, Some err)
    | None => (any_countRequest request, None)
    end.

(** src/main.go:154-160 *)
Definition decodeHostnameRequest : DecodeRequestFunc :=
  fun _ r =>
    let request := mk_hostnameRequest in
    let (request, err) := Decode_hostnameRequest (Body r) request in
    match err with
    | Some err => (any_nil, Some err)
    | None => (any_hostnameRequest request, None)
    end.
End Transport.

(** src/main.go:162-164  [json.NewEncoder(w).Encode(response)]: every value
    of [any] marshals, so the encoder writes one document and returns nil. *)
Definition encodeResponse : EncodeResponseFunc :=
  fun _ w response => ((w ++ [json_Marshal response])%list, None).

(** What the caller of a route receives: the documents written by the encode
    step, or the infrastructure failure that ended the call. *)
Inductive reply : Type :=
| ReplyBody (w : http_ResponseWriter)
| ReplyFailure (err : error).

(** [httptransport.NewServer(e, dec, enc)] *)
Record Server (St : Type) : Type := NewServer {
  server_e : Endpoint St;
  server_dec : DecodeRequestFunc;
  server_enc : EncodeResponseFunc
}.
Arguments NewServer {St} _ _ _.
Arguments server_e {St} _.
Arguments server_dec {St} _.
Arguments server_enc {St} _.

(** Modelled from the spec: the dispatch of one call through a route
    ([ServeHTTP] of go-kit's [transport/http.Server], which main only
    instantiates) is not part of src/.  The spec's sections 2, 4.3 and 7
    give it: decode, then the endpoint, then encode; the first
    infrastructure failure ends the call and no response body is encoded
    for it. *)
Definition ServeHTTP {St} (s : Server St) (ctx : Context) (r : http_Request)
  : M St reply :=
  match server_dec s ctx r with
  | (_, Some err) => ret (ReplyFailure err)
  | (request, None) =>
      '(response, err) <- server_e s ctx request ;;
      match err with
      | Some err => ret (ReplyFailure err)
      | None =>
          match server_enc s ctx [] response with
          | (_, Some err) => ret (ReplyFailure err)
          | (w, None) => ret (ReplyBody w)
          end
      end
  end.

Section Main.
Context {strings : strings_pkg} {encoding_json : json_pkg}.

(** src/main.go:114-118 *)
Definition uppercaseHandler : Server World :=
  NewServer (makeUppercaseEndpoint stringService)
            decodeUppercaseRequest encodeResponse.

(** src/main.go:120-124 *)
Definition countHandler : Server World :=
  NewServer (makeCountEndpoint stringService)
            decodeCountRequest encodeResponse.

(** src/main.go:126-130 *)
Definition hostnameHandler : Server World :=
  NewServer (makeHostnameEndpoint osInfoService)
            decodeHostnameRequest encodeResponse.

(** src/main.go:132-134: the route table that [http.Handle] fills. *)
Definition main : list (string * Server World) :=
  [ ("/uppercase", uppercaseHandler);
    ("/count", countHandler);
    ("/hostname", hostnameHandler) ].
End Main.

(** ** Reading a response *)

(** The text an endpoint stores in the [Err] field for a domain error. *)
Definition error_field (err : option error) : string :=
  match err with
  | Some e => Error e
  | None => ""
  end.

(** An endpoint call came back with a response and a nil transport error. *)
Definition returns_response {St} (res : outcome (any * option error) * St)
    (response : any) (st' : St) : Prop :=
  res = (Returned (response, None), st').

(** An endpoint call came back with a non-nil transport error. *)
Definition returns_transport_error {St} (res : outcome (any * option error) * St) : Prop :=
  exists response err st', res = (Returned (response, Some err), st').

(** ** Instances used to run the program on concrete inputs *)

(** [strings.ToUpper] on ASCII-only strings: the bytes 'a'..'z' move down by
    'a' - 'A', every other byte stays. *)
Definition ascii_upper (c : ascii) : ascii :=
  let n := nat_of_ascii c in
  if (97 <=? n)%nat && (n <=? 122)%nat then ascii_of_nat (n - 32) else c.

Fixpoint ascii_ToUpper (s : string) : string :=
  match s with
  | EmptyString => EmptyString
  | String c rest => String (ascii_upper c) (ascii_ToUpper rest)
  end.

Definition ascii_strings : strings_pkg := {| strings_ToUpper := ascii_ToUpper |}.

Definition dquote : ascii := ascii_of_nat 34.
Definition backslash : ascii := ascii_of_nat 92.

Fixpoint strip_prefix (p s : string) : option string :=
  match p, s with
  | EmptyString, _ => Some s
  | String a p', String b s' => if Ascii.eqb a b then strip_prefix p' s' else None
  | String _ _, EmptyString => None
  end.

(** The printable ASCII bytes up to the closing quote, and what follows it. *)
Fixpoint read_plain (s : string) : option (string * string) :=
  match s with
  | EmptyString => None
  | String c rest =>
      if Ascii.eqb c dquote then Some (EmptyString, rest)
      else if Ascii.eqb c backslash
              || (nat_of_ascii c <? 32)%nat || (126 <? nat_of_ascii c)%nat
      then None
      else match read_plain rest with
           | Some (x, rest') => Some (String c x, rest')
           | None => None
           end
  end.

(** The member "s" of a document of the shape [{"s":"..."}]. *)
Definition read_s_member (body : string) : option string :=
  match strip_prefix (String "{" (String dquote (String "s"
                        (String dquote (String ":" (String dquote EmptyString))))))
                     body with
  | Some rest =>
      match read_plain rest with
      | Some (x, rest') => if String.eqb rest' "}" then Some x else None
      | None => None
      end
  | None => None
  end.

Definition SyntaxError : error := errors_New "invalid character".

(** A decoder for the documents of the spec's scenarios, [{}] and
    [{"s":"<printable ASCII>"}]; it reports [io.EOF] on an empty body and a
    syntax error on everything else. *)
Definition sample_Decode {T} (set_s : string -> T -> T) (body : string) (v : T)
  : T * option error :=
  if String.eqb body "" then (v, Some io_EOF)
  else if String.eqb body "{}" then (v, None)
  else match read_s_member body with
       | Some x => (set_s x v, None)
       | None => (v, Some SyntaxError)
       end.

Definition sample_json : json_pkg :=
  {| Decode_uppercaseRequest := sample_Decode (fun x _ => mk_uppercaseRequest x);
     Decode_countRequest := sample_Decode (fun x _ => mk_countRequest x);
     Decode_hostnameRequest := sample_Decode (fun _ v => v);
     Decode_hostnameRequest_EOF := fun _ => eq_refl |}.

(** Capabilities that count their invocations in the state. *)
Definition spyStringService : StringService nat :=
  {| Uppercase := fun s n => ((s, None), S n);
     Count := fun _ n => (0%Z, S n) |}.

Definition spyOSInfoService : OSInfoService nat :=
  {| Hostname := fun n => (("spy", None), S n) |}.

(** A capability that fails with an error whose text is empty. *)
Definition silentStringService : StringService nat :=
  {| Uppercase := fun s n => ((s, Some (errors_New "")), S n);
     Count := fun _ n => (0%Z, S n) |}.

Definition silentOSInfoService : OSInfoService nat :=
  {| Hostname := fun n => (("spy", Some (errors_New "")), S n) |}.

Definition background : Context := mk_Context false.

(** A context whose [Done] channel is closed. *)
Definition cancelled : Context := mk_Context true.

(** [POST path body] against the route table of [main], in world [w]. *)
Definition post (path body : string) (w : World) : option (outcome reply * World) :=
  match find (fun route => String.eqb (fst route) path)
             (@main ascii_strings sample_json) with
  | Some (_, handler) => Some (ServeHTTP handler background (mk_http_Request body) w)
  | None => None
  end.

Definition sample_world : World := mk_World ("build-host", None).
Definition nameless_world : World := mk_World ("", Some (errors_New "lookup failed")).

Definition body_s (x : string) : string :=
  String "{" (String dquote (String "s" (String dquote (String ":"
    (String dquote (x ++ String dquote "}")))))).

(** * Properties *)

(** ** The equations of the endpoints *)

Section EndpointEquations.
Context {St : Type}.
Variables (svc : StringService St) (osvc : OSInfoService St).
Variables (ctx : Context) (st : St).

Lemma makeUppercaseEndpoint_eq (req : uppercaseRequest) :
  makeUppercaseEndpoint svc ctx (any_uppercaseRequest req) st =
    (Returned
       (any_uppercaseResponse
          (mk_uppercaseResponse
             (fst (fst (Uppercase svc (uppercaseRequest_S req) st)))
             (error_field (snd (fst (Uppercase svc (uppercaseRequest_S req) st))))),
        None),
     snd (Uppercase svc (uppercaseRequest_S req) st)).
Proof.
  unfold makeUppercaseEndpoint, bind, call; cbn.
  destruct (Uppercase svc (uppercaseRequest_S req) st) as [[v [e|]] st'];
    reflexivity.
Qed.

Lemma makeCountEndpoint_eq (req : countRequest) :
  makeCountEndpoint svc ctx (any_countRequest req) st =
    (Returned
       (any_countResponse
          (mk_countResponse (fst (Count svc (countRequest_S req) st))),
        None),
     snd (Count svc (countRequest_S req) st)).
Proof.
  unfold makeCountEndpoint, bind, call; cbn.
  destruct (Count svc (countRequest_S req) st) as [v st']; reflexivity.
Qed.

Lemma makeHostnameEndpoint_eq (request : any) :
  makeHostnameEndpoint osvc ctx request st =
    (Returned
       (any_hostnameResponse
          (mk_hostnameResponse
             (fst (fst (Hostname osvc st)))
             (error_field (snd (fst (Hostname osvc st))))),
        None),
     snd (Hostname osvc st)).
Proof.
  unfold makeHostnameEndpoint, bind, call.
  destruct (Hostname osvc st) as [[v [e|]] st']; reflexivity.
Qed.

Lemma assert_uppercaseRequest_panics (request : any) :
  (forall req, request <> any_uppercaseRequest req) ->
  assert_uppercaseRequest request st =
    (Panicked (TypeAssertionError request "main.uppercaseRequest"), st).
Proof.
  intros Hty; destruct request; try reflexivity.
  exfalso; eapply Hty; reflexivity.
Qed.

Lemma assert_countRequest_panics (request : any) :
  (forall req, request <> any_countRequest req) ->
  assert_countRequest request st =
    (Panicked (TypeAssertionError request "main.countRequest"), st).
Proof.
  intros Hty; destruct request; try reflexivity.
  exfalso; eapply Hty; reflexivity.
Qed.
End EndpointEquations.

(** ** The capabilities of [main] *)

Section CapabilityFacts.
Context {strings : strings_pkg} {St : Type}.

Lemma Uppercase_empty (st : St) :
  Uppercase stringService "" st = (("", Some ErrEmpty), st).
Proof. reflexivity. Qed.

Lemma Uppercase_nonempty (s : string) (st : St) :
  s <> "" ->
  Uppercase stringService s st = ((strings_ToUpper s, None), st).
Proof.
  intros Hs; cbn; unfold stringService_Uppercase.
  destruct (String.eqb_spec s ""); [contradiction | reflexivity].
Qed.

Lemma Uppercase_state (s : string) (st : St) :
  snd (Uppercase stringService s st) = st.
Proof.
  cbn; unfold stringService_Uppercase.
  destruct (String.eqb s ""); reflexivity.
Qed.

Lemma Hostname_state (w : World) : snd (Hostname osInfoService w) = w.
Proof.
  cbn; unfold osInfoService_Hostname, os_Hostname.
  destruct (os_hostname w) as [name [e|]]; reflexivity.
Qed.

Lemma Hostname_depends_on_lookup (w w' : World) :
  os_hostname w' = os_hostname w ->
  fst (Hostname osInfoService w') = fst (Hostname osInfoService w).
Proof.
  intros Heq; cbn; unfold osInfoService_Hostname, os_Hostname.
  rewrite Heq; destruct (os_hostname w) as [name [e|]]; reflexivity.
Qed.
End CapabilityFacts.

(** ** Endpoint results *)

(** C1: every endpoint, given a request of its own envelope type, returns
    with a nil transport error, whether the capability succeeded or failed;
    what the capability reported as a domain error is found in the [Err]
    field of the response and nowhere else.  The statement holds for every
    implementation of the two capability interfaces. *)
Theorem endpoints_keep_domain_errors_off_the_transport_channel :
  forall (St : Type) (svc : StringService St) (osvc : OSInfoService St)
         (ctx : Context) (st : St),
    (forall req : uppercaseRequest,
        exists v err st',
          Uppercase svc (uppercaseRequest_S req) st = ((v, err), st') /\
          returns_response
            (makeUppercaseEndpoint svc ctx (any_uppercaseRequest req) st)
            (any_uppercaseResponse (mk_uppercaseResponse v (error_field err))) st')
    /\ (forall req : countRequest,
        exists v st',
          Count svc (countRequest_S req) st = (v, st') /\
          returns_response
            (makeCountEndpoint svc ctx (any_countRequest req) st)
            (any_countResponse (mk_countResponse v)) st')
    /\ (forall req : hostnameRequest,
        exists v err st',
          Hostname osvc st = ((v, err), st') /\
          returns_response
            (makeHostnameEndpoint osvc ctx (any_hostnameRequest req) st)
            (any_hostnameResponse (mk_hostnameResponse v (error_field err))) st').
Proof.
  intros St svc osvc ctx st; unfold returns_response; repeat split.
  - intros req; rewrite makeUppercaseEndpoint_eq.
    destruct (Uppercase svc (uppercaseRequest_S req) st) as [[v err] st'].
    exists v, err, st'; split; reflexivity.
  - intros req; rewrite makeCountEndpoint_eq.
    destruct (Count svc (countRequest_S req) st) as [v st'].
    exists v, st'; split; reflexivity.
  - intros req; rewrite makeHostnameEndpoint_eq.
    destruct (Hostname osvc st) as [[v err] st'].
    exists v, err, st'; split; reflexivity.
Qed.

(** C2: on a non-empty string the uppercase operation succeeds: the
    capability returns [strings.ToUpper(s)] with a nil error, the endpoint
    answers with [V] set to it and an empty [Err], and the encoded document
    has the member "v" and no member "err". *)
Theorem uppercase_nonempty_succeeds :
  forall (strings : strings_pkg) (St : Type) (ctx : Context) (s : string) (st : St),
    s <> "" ->
    Uppercase stringService s st = ((strings_ToUpper s, None), st)
    /\ returns_response
         (makeUppercaseEndpoint stringService ctx
            (any_uppercaseRequest (mk_uppercaseRequest s)) st)
         (any_uppercaseResponse (mk_uppercaseResponse (strings_ToUpper s) "")) st
    /\ json_Marshal
         (any_uppercaseResponse (mk_uppercaseResponse (strings_ToUpper s) ""))
       = JObject [("v", JString (strings_ToUpper s))]
    /\ json_member "err"
         (json_Marshal
            (any_uppercaseResponse (mk_uppercaseResponse (strings_ToUpper s) "")))
       = None.
Proof.
  intros strings St ctx s st Hs; unfold returns_response.
  repeat split.
  - apply Uppercase_nonempty; exact Hs.
  - rewrite makeUppercaseEndpoint_eq; cbn [uppercaseRequest_S].
    rewrite (Uppercase_nonempty s st Hs); reflexivity.
Qed.

(** C3: on the empty string the uppercase operation answers [V = ""] and
    [Err = "empty string"], still with a nil transport error, and the empty
    string is the only input on which the capability reports an error (and
    the only one for which the response carries a non-empty [Err]). *)
Theorem uppercase_fails_exactly_on_empty :
  forall (strings : strings_pkg) (St : Type) (ctx : Context) (st : St),
    Uppercase stringService "" st = (("", Some ErrEmpty), st)
    /\ returns_response
         (makeUppercaseEndpoint stringService ctx
            (any_uppercaseRequest (mk_uppercaseRequest "")) st)
         (any_uppercaseResponse (mk_uppercaseResponse "" "empty string")) st
    /\ json_Marshal
         (any_uppercaseResponse (mk_uppercaseResponse "" "empty string"))
       = JObject [("v", JString ""); ("err", JString "empty string")]
    /\ (forall s : string,
          snd (fst (Uppercase stringService s st)) <> None <-> s = "")
    /\ (forall (s : string) (r : uppercaseResponse) (st' : St),
          returns_response
            (makeUppercaseEndpoint stringService ctx
               (any_uppercaseRequest (mk_uppercaseRequest s)) st)
            (any_uppercaseResponse r) st' ->
          (uppercaseResponse_Err r <> "" <-> s = "")).
Proof.
  intros strings St ctx st; unfold returns_response.
  split; [reflexivity|]. split; [reflexivity|]. split; [reflexivity|].
  split.
  - intros s; destruct (String.eqb_spec s "") as [->|Hs].
    + split; [reflexivity | intros _; discriminate].
    + rewrite (Uppercase_nonempty s st Hs); cbn.
      split; [intros H; contradiction | intros H; contradiction].
  - intros s r st'; rewrite makeUppercaseEndpoint_eq; cbn [uppercaseRequest_S].
    destruct (String.eqb_spec s "") as [->|Hs].
    + rewrite Uppercase_empty; cbn; intros H; injection H as <- _.
      split; [reflexivity | intros _; discriminate].
    + rewrite (Uppercase_nonempty s st Hs); cbn; intros H; injection H as <- _.
      cbn; split; [intros H; contradiction | intros H; contradiction].
Qed.

Lemma uppercase_nonempty_succeeds_witness :
  "hi" <> ""
  /\ @Uppercase World (@stringService ascii_strings World) "hi" sample_world
     = (("HI", None), sample_world)
  /\ returns_response
       (makeUppercaseEndpoint (@stringService ascii_strings World) background
          (any_uppercaseRequest (mk_uppercaseRequest "hi")) sample_world)
       (any_uppercaseResponse (mk_uppercaseResponse "HI" "")) sample_world.
Proof.
  assert (Hne : "hi" <> "") by discriminate.
  split; [exact Hne|].
  destruct (uppercase_nonempty_succeeds ascii_strings World background "hi"
              sample_world Hne) as (Hsvc & Hep & _).
  split; [exact Hsvc | exact Hep].
Defined.

(** C4: the count operation is total: for every string, the empty one
    included, the capability returns the length of [s] in bytes, the
    endpoint answers a [countResponse] holding it with a nil transport
    error, and the encoded document is [{"v": len}], which has no member
    "err". *)
Theorem count_total_and_exact :
  forall (strings : strings_pkg) (St : Type) (ctx : Context) (s : string) (st : St),
    Count stringService s st = (Z.of_nat (String.length s), st)
    /\ returns_response
         (makeCountEndpoint stringService ctx
            (any_countRequest (mk_countRequest s)) st)
         (any_countResponse (mk_countResponse (Z.of_nat (String.length s)))) st
    /\ json_Marshal
         (any_countResponse (mk_countResponse (Z.of_nat (String.length s))))
       = JObject [("v", JNumber (Z.of_nat (String.length s)))]
    /\ (forall r : countResponse,
          json_member "err" (json_Marshal (any_countResponse r)) = None).
Proof.
  intros strings St ctx s st; unfold returns_response.
  split; [reflexivity|]. split; [|split; [reflexivity|intros r; reflexivity]].
  rewrite makeCountEndpoint_eq; reflexivity.
Qed.

(** C5: when the operating system's host-name lookup succeeds with [name],
    the hostname operation answers [V = name] with an empty (omitted) [Err];
    when the lookup fails it answers [V = ""] and [Err = "empty string"].
    Both come back with a nil transport error. *)
Theorem hostname_reports_lookup :
  forall (ctx : Context) (request : any) (w : World),
    (forall name : string,
        os_hostname w = (name, None) ->
        Hostname osInfoService w = ((name, None), w)
        /\ returns_response
             (makeHostnameEndpoint osInfoService ctx request w)
             (any_hostnameResponse (mk_hostnameResponse name "")) w
        /\ json_Marshal (any_hostnameResponse (mk_hostnameResponse name ""))
           = JObject [("v", JString name)])
    /\ (forall (name : string) (e : error),
        os_hostname w = (name, Some e) ->
        Hostname osInfoService w = (("", Some ErrEmpty), w)
        /\ returns_response
             (makeHostnameEndpoint osInfoService ctx request w)
             (any_hostnameResponse (mk_hostnameResponse "" "empty string")) w
        /\ json_Marshal
             (any_hostnameResponse (mk_hostnameResponse "" "empty string"))
           = JObject [("v", JString ""); ("err", JString "empty string")]).
Proof.
  intros ctx request w; unfold returns_response; split.
  - intros name Hok.
    assert (Hsvc : Hostname osInfoService w = ((name, None), w)).
    { cbn; unfold osInfoService_Hostname, os_Hostname; rewrite Hok; reflexivity. }
    split; [exact Hsvc|]. split; [|reflexivity].
    rewrite makeHostnameEndpoint_eq, Hsvc; reflexivity.
  - intros name e Hfail.
    assert (Hsvc : Hostname osInfoService w = (("", Some ErrEmpty), w)).
    { cbn; unfold osInfoService_Hostname, os_Hostname; rewrite Hfail; reflexivity. }
    split; [exact Hsvc|]. split; [|reflexivity].
    rewrite makeHostnameEndpoint_eq, Hsvc; reflexivity.
Qed.

Lemma hostname_reports_lookup_witness :
  (os_hostname sample_world = ("build-host", None)
   /\ returns_response
        (makeHostnameEndpoint osInfoService background
           (any_hostnameRequest mk_hostnameRequest) sample_world)
        (any_hostnameResponse (mk_hostnameResponse "build-host" "")) sample_world)
  /\ (os_hostname nameless_world = ("", Some (errors_New "lookup failed"))
      /\ returns_response
           (makeHostnameEndpoint osInfoService background
              (any_hostnameRequest mk_hostnameRequest) nameless_world)
           (any_hostnameResponse (mk_hostnameResponse "" "empty string"))
           nameless_world).
Proof.
  split.
  - split; [reflexivity|].
    destruct (hostname_reports_lookup background
                (any_hostnameRequest mk_hostnameRequest) sample_world)
      as [Hok _].
    destruct (Hok "build-host" eq_refl) as (_ & Hep & _); exact Hep.
  - split; [reflexivity|].
    destruct (hostname_reports_lookup background
                (any_hostnameRequest mk_hostnameRequest) nameless_world)
      as [_ Hfail].
    destruct (Hfail "" (errors_New "lookup failed") eq_refl) as (_ & Hep & _);
      exact Hep.
Defined.

(** ** Requests of a foreign type *)

(** C6, as stated, fails: handed a [hostnameRequest], the uppercase endpoint
    panics at its type assertion; it does not return a transport error. *)
Lemma narrowing_failure_is_not_a_transport_error :
  makeUppercaseEndpoint (@stringService ascii_strings World) background
    (any_hostnameRequest mk_hostnameRequest) sample_world
  = (Panicked (TypeAssertionError (any_hostnameRequest mk_hostnameRequest)
                 "main.uppercaseRequest"),
     sample_world)
  /\ ~ returns_transport_error
         (makeUppercaseEndpoint (@stringService ascii_strings World) background
            (any_hostnameRequest mk_hostnameRequest) sample_world).
Proof.
  split; [reflexivity|].
  intros (response & err & st' & H); cbn in H; discriminate H.
Qed.

(** C6, amended: a request that is not of the endpoint's own envelope type
    makes the uppercase and the count endpoint panic at the type assertion:
    neither a response nor a transport error is returned, and the state is
    the one before the call, so the capability was not invoked.  This holds
    for every implementation of the capability interface. *)
Theorem narrowing_failure_panics :
  forall (St : Type) (svc : StringService St) (ctx : Context)
         (request : any) (st : St),
    ((forall req, request <> any_uppercaseRequest req) ->
     makeUppercaseEndpoint svc ctx request st
     = (Panicked (TypeAssertionError request "main.uppercaseRequest"), st))
    /\ ((forall req, request <> any_countRequest req) ->
        makeCountEndpoint svc ctx request st
        = (Panicked (TypeAssertionError request "main.countRequest"), st)).
Proof.
  intros St svc ctx request st; split; intros Hty.
  - unfold makeUppercaseEndpoint, bind.
    rewrite (assert_uppercaseRequest_panics st request Hty); reflexivity.
  - unfold makeCountEndpoint, bind.
    rewrite (assert_countRequest_panics st request Hty); reflexivity.
Qed.

Lemma narrowing_failure_panics_witness :
  (forall req, any_string "hi" <> any_uppercaseRequest req)
  /\ (forall req, any_string "hi" <> any_countRequest req)
  /\ makeUppercaseEndpoint spyStringService background (any_string "hi") 0
     = (Panicked (TypeAssertionError (any_string "hi") "main.uppercaseRequest"), 0)
  /\ makeCountEndpoint spyStringService background (any_string "hi") 0
     = (Panicked (TypeAssertionError (any_string "hi") "main.countRequest"), 0).
Proof.
  assert (Hu : forall req, any_string "hi" <> any_uppercaseRequest req)
    by (intros req; discriminate).
  assert (Hc : forall req, any_string "hi" <> any_countRequest req)
    by (intros req; discriminate).
  destruct (narrowing_failure_panics nat spyStringService background
              (any_string "hi") 0) as [Pu Pc].
  split; [exact Hu|]. split; [exact Hc|].
  split; [exact (Pu Hu) | exact (Pc Hc)].
Defined.

(** ** Decode failures *)

Section DecodeFailures.
Context {encoding_json : json_pkg} {St : Type}.
Variables (ctx : Context) (r : http_Request) (err : error).

Lemma decodeUppercaseRequest_fails :
  snd (Decode_uppercaseRequest (Body r) (mk_uppercaseRequest "")) = Some err ->
  decodeUppercaseRequest ctx r = (any_nil, Some err).
Proof.
  unfold decodeUppercaseRequest.
  destruct (Decode_uppercaseRequest (Body r) (mk_uppercaseRequest "")) as [req e].
  cbn; intros ->; reflexivity.
Qed.

Lemma decodeCountRequest_fails :
  snd (Decode_countRequest (Body r) (mk_countRequest "")) = Some err ->
  decodeCountRequest ctx r = (any_nil, Some err).
Proof.
  unfold decodeCountRequest.
  destruct (Decode_countRequest (Body r) (mk_countRequest "")) as [req e].
  cbn; intros ->; reflexivity.
Qed.

Lemma decodeHostnameRequest_fails :
  snd (Decode_hostnameRequest (Body r) mk_hostnameRequest) = Some err ->
  decodeHostnameRequest ctx r = (any_nil, Some err).
Proof.
  unfold decodeHostnameRequest.
  destruct (Decode_hostnameRequest (Body r) mk_hostnameRequest) as [req e].
  cbn; intros ->; reflexivity.
Qed.

(** A call whose decode step fails ends there: the endpoint is not run. *)
Lemma ServeHTTP_decode_failure (e : Endpoint St) (dec : DecodeRequestFunc)
      (enc : EncodeResponseFunc) (st : St) :
  dec ctx r = (any_nil, Some err) ->
  ServeHTTP (NewServer e dec enc) ctx r st = (Returned (ReplyFailure err), st).
Proof. unfold ServeHTTP; cbn; intros ->; reflexivity. Qed.
End DecodeFailures.

(** C7: on every route, a body that the JSON decoder rejects makes the
    route's decode function return a nil request and the decoder's error;
    the call then ends with that infrastructure failure: no response is
    encoded, and the state is the one before the call whatever the
    capability implementation is, so no capability method ran. *)
Theorem malformed_input_stops_at_decode :
  forall (encoding_json : json_pkg) (St : Type)
         (svc : StringService St) (osvc : OSInfoService St)
         (ctx : Context) (r : http_Request) (err : error) (st : St),
    (snd (Decode_uppercaseRequest (Body r) (mk_uppercaseRequest "")) = Some err ->
     decodeUppercaseRequest ctx r = (any_nil, Some err)
     /\ ServeHTTP (NewServer (makeUppercaseEndpoint svc)
                     decodeUppercaseRequest encodeResponse) ctx r st
        = (Returned (ReplyFailure err), st))
    /\ (snd (Decode_countRequest (Body r) (mk_countRequest "")) = Some err ->
        decodeCountRequest ctx r = (any_nil, Some err)
        /\ ServeHTTP (NewServer (makeCountEndpoint svc)
                        decodeCountRequest encodeResponse) ctx r st
           = (Returned (ReplyFailure err), st))
    /\ (snd (Decode_hostnameRequest (Body r) mk_hostnameRequest) = Some err ->
        decodeHostnameRequest ctx r = (any_nil, Some err)
        /\ ServeHTTP (NewServer (makeHostnameEndpoint osvc)
                        decodeHostnameRequest encodeResponse) ctx r st
           = (Returned (ReplyFailure err), st)).
Proof.
  intros encoding_json St svc osvc ctx r err st.
  split; [|split]; intros Hbad.
  - pose proof (decodeUppercaseRequest_fails ctx r err Hbad) as Hdec.
    split; [exact Hdec | apply ServeHTTP_decode_failure; exact Hdec].
  - pose proof (decodeCountRequest_fails ctx r err Hbad) as Hdec.
    split; [exact Hdec | apply ServeHTTP_decode_failure; exact Hdec].
  - pose proof (decodeHostnameRequest_fails ctx r err Hbad) as Hdec.
    split; [exact Hdec | apply ServeHTTP_decode_failure; exact Hdec].
Qed.

Lemma malformed_input_stops_at_decode_witness :
  let r := mk_http_Request "{" in
  snd (@Decode_uppercaseRequest sample_json (Body r) (mk_uppercaseRequest ""))
    = Some SyntaxError
  /\ snd (@Decode_countRequest sample_json (Body r) (mk_countRequest ""))
    = Some SyntaxError
  /\ snd (@Decode_hostnameRequest sample_json (Body r) mk_hostnameRequest)
    = Some SyntaxError
  /\ ServeHTTP (NewServer (makeUppercaseEndpoint spyStringService)
                  (@decodeUppercaseRequest sample_json) encodeResponse)
       background r 0%nat
     = (Returned (ReplyFailure SyntaxError), 0%nat)
  /\ ServeHTTP (NewServer (makeCountEndpoint spyStringService)
                  (@decodeCountRequest sample_json) encodeResponse)
       background r 0%nat
     = (Returned (ReplyFailure SyntaxError), 0%nat)
  /\ ServeHTTP (NewServer (makeHostnameEndpoint spyOSInfoService)
                  (@decodeHostnameRequest sample_json) encodeResponse)
       background r 0%nat
     = (Returned (ReplyFailure SyntaxError), 0%nat).
Proof.
  intros r.
  destruct (malformed_input_stops_at_decode sample_json nat spyStringService
              spyOSInfoService background r SyntaxError 0%nat)
    as (Hu & Hc & Hh).
  split; [reflexivity|]. split; [reflexivity|]. split; [reflexivity|].
  split; [exact (proj2 (Hu eq_refl))|].
  split; [exact (proj2 (Hc eq_refl)) | exact (proj2 (Hh eq_refl))].
Defined.

(** ** Determinism and absence of state *)

Section Stateless.
Context {strings : strings_pkg}.

Lemma makeUppercaseEndpoint_state {St} (ctx : Context) (request : any) (st : St) :
  snd (makeUppercaseEndpoint stringService ctx request st) = st.
Proof.
  destruct request; try reflexivity.
  rewrite makeUppercaseEndpoint_eq; cbn [snd]; apply Uppercase_state.
Qed.

Lemma makeCountEndpoint_state {St} (ctx : Context) (request : any) (st : St) :
  snd (makeCountEndpoint stringService ctx request st) = st.
Proof. destruct request; reflexivity. Qed.

Lemma makeHostnameEndpoint_state (ctx : Context) (request : any) (w : World) :
  snd (makeHostnameEndpoint osInfoService ctx request w) = w.
Proof. rewrite makeHostnameEndpoint_eq; cbn [snd]; apply Hostname_state. Qed.

(** A route whose endpoint leaves the state alone leaves the state alone. *)
Lemma ServeHTTP_state {St} (e : Endpoint St) (dec : DecodeRequestFunc)
      (enc : EncodeResponseFunc) (ctx : Context) (r : http_Request) (st : St) :
  (forall request, snd (e ctx request st) = st) ->
  snd (ServeHTTP (NewServer e dec enc) ctx r st) = st.
Proof.
  intros He; unfold ServeHTTP, bind; cbn.
  destruct (dec ctx r) as [request [err|]]; [reflexivity|].
  specialize (He request).
  destruct (e ctx request st) as [[[response [err|]]|p] st']; cbn in *;
    try exact He.
  destruct (enc ctx [] response) as [w [err|]]; exact He.
Qed.

Lemma same_lookup_same_world (w w' : World) :
  os_hostname w' = os_hostname w -> w' = w.
Proof. destruct w, w'; cbn; intros ->; reflexivity. Qed.

Context {encoding_json : json_pkg}.

Lemma main_endpoints_state (path : string) (handler : Server World) :
  In (path, handler) main ->
  forall (ctx : Context) (request : any) (w : World),
    snd (server_e handler ctx request w) = w.
Proof.
  cbn; intros [H|[H|[H|[]]]]; injection H as _ <-; intros ctx request w; cbn.
  - apply makeUppercaseEndpoint_state.
  - apply makeCountEndpoint_state.
  - apply makeHostnameEndpoint_state.
Qed.

(** Through the dispatch of a whole call, too, the world stays as it was. *)
Lemma main_routes_state (path : string) (handler : Server World) :
  In (path, handler) main ->
  forall (ctx : Context) (r : http_Request) (w : World),
    snd (ServeHTTP handler ctx r w) = w.
Proof.
  intros Hin ctx r w; destruct handler as [e dec enc]; apply ServeHTTP_state.
  intros request; apply (main_endpoints_state path _ Hin ctx request w).
Qed.
End Stateless.

(** C8: every route of [main] is deterministic and keeps no state.  For the
    endpoint of each route, on any request value: the world after the call
    is the world before it; two worlds that agree on the host-name lookup
    give the same result; hence a second call with the same request, made
    after the first, gives the same result and again leaves the world as it
    was. *)
Theorem routes_deterministic_and_stateless :
  forall (strings : strings_pkg) (encoding_json : json_pkg)
         (path : string) (handler : Server World),
    In (path, handler) main ->
    forall (ctx : Context) (request : any) (w : World),
      snd (server_e handler ctx request w) = w
      /\ (forall w' : World,
             os_hostname w' = os_hostname w ->
             fst (server_e handler ctx request w')
             = fst (server_e handler ctx request w))
      /\ server_e handler ctx request (snd (server_e handler ctx request w))
         = server_e handler ctx request w.
Proof.
  intros strings encoding_json path handler Hin ctx request w.
  pose proof (main_endpoints_state path handler Hin ctx request w) as He.
  split; [exact He|]. split.
  - intros w' Hw; rewrite (same_lookup_same_world w w' Hw); reflexivity.
  - rewrite He; reflexivity.
Qed.

Lemma routes_deterministic_and_stateless_witness :
  In ("/hostname", @hostnameHandler sample_json)
     (@main ascii_strings sample_json)
  /\ os_hostname (mk_World ("build-host", None)) = os_hostname sample_world
  /\ snd (makeHostnameEndpoint osInfoService background
            (any_hostnameRequest mk_hostnameRequest) sample_world)
     = sample_world
  /\ fst (makeHostnameEndpoint osInfoService background
            (any_hostnameRequest mk_hostnameRequest)
            (mk_World ("build-host", None)))
     = fst (makeHostnameEndpoint osInfoService background
              (any_hostnameRequest mk_hostnameRequest) sample_world).
Proof.
  assert (Hin : In ("/hostname", @hostnameHandler sample_json)
                   (@main ascii_strings sample_json))
    by (cbn; right; right; left; reflexivity).
  destruct (routes_deterministic_and_stateless ascii_strings sample_json
              "/hostname" hostnameHandler Hin background
              (any_hostnameRequest mk_hostnameRequest) sample_world)
    as (Hstate & Hsame & _).
  split; [exact Hin|]. split; [reflexivity|]. split; [exact Hstate|].
  exact (Hsame (mk_World ("build-host", None)) eq_refl).
Defined.

(** ** The hostname route *)

(** C9: the hostname endpoint never looks at its request: any two request
    values, of whatever dynamic types, give the same result in the same
    state, and that result is always a [hostnameResponse] returned with a
    nil transport error, never a panic.  The uppercase endpoint, by
    contrast, does depend on the request.  This holds for every
    implementation of [OSInfoService]. *)
Theorem hostname_endpoint_ignores_request :
  forall (St : Type) (osvc : OSInfoService St) (ctx : Context)
         (r1 r2 : any) (st : St),
    makeHostnameEndpoint osvc ctx r1 st = makeHostnameEndpoint osvc ctx r2 st
    /\ (exists (response : hostnameResponse) (st' : St),
           returns_response (makeHostnameEndpoint osvc ctx r1 st)
             (any_hostnameResponse response) st')
    /\ (forall (svc : StringService St),
           makeUppercaseEndpoint svc ctx (any_hostnameRequest mk_hostnameRequest) st
           <> makeUppercaseEndpoint svc ctx
                (any_uppercaseRequest (mk_uppercaseRequest "")) st).
Proof.
  intros St osvc ctx r1 r2 st; split; [|split].
  - rewrite !makeHostnameEndpoint_eq; reflexivity.
  - rewrite makeHostnameEndpoint_eq; unfold returns_response.
    eexists; eexists; reflexivity.
  - intros svc; rewrite makeUppercaseEndpoint_eq; cbn; discriminate.
Qed.

(** C10: the decode step of the hostname route runs the JSON decoder on the
    body although [hostnameRequest] has no field: its result is the
    decoder's.  A body the decoder rejects, the empty body among them
    ([io.EOF]), makes the call end at the decode step with that failure and
    the state untouched: [Hostname] is reached only through a body that
    decodes. *)
Theorem hostname_route_requires_decodable_body :
  forall (encoding_json : json_pkg) (St : Type) (osvc : OSInfoService St)
         (ctx : Context) (r : http_Request) (st : St),
    decodeHostnameRequest ctx r
    = (match snd (Decode_hostnameRequest (Body r) mk_hostnameRequest) with
       | Some err => (any_nil, Some err)
       | None =>
           (any_hostnameRequest
              (fst (Decode_hostnameRequest (Body r) mk_hostnameRequest)), None)
       end)
    /\ (forall err : error,
           snd (Decode_hostnameRequest (Body r) mk_hostnameRequest) = Some err ->
           decodeHostnameRequest ctx r = (any_nil, Some err)
           /\ ServeHTTP (NewServer (makeHostnameEndpoint osvc)
                           decodeHostnameRequest encodeResponse) ctx r st
              = (Returned (ReplyFailure err), st))
    /\ (Body r = "" ->
        decodeHostnameRequest ctx r = (any_nil, Some io_EOF)
        /\ ServeHTTP (NewServer (makeHostnameEndpoint osvc)
                        decodeHostnameRequest encodeResponse) ctx r st
           = (Returned (ReplyFailure io_EOF), st)).
Proof.
  intros encoding_json St osvc ctx r st.
  assert (Hfail : forall err : error,
             snd (Decode_hostnameRequest (Body r) mk_hostnameRequest) = Some err ->
             decodeHostnameRequest ctx r = (any_nil, Some err)
             /\ ServeHTTP (NewServer (makeHostnameEndpoint osvc)
                             decodeHostnameRequest encodeResponse) ctx r st
                = (Returned (ReplyFailure err), st)).
  { intros err Hbad.
    pose proof (decodeHostnameRequest_fails ctx r err Hbad) as Hdec.
    split; [exact Hdec | apply ServeHTTP_decode_failure; exact Hdec]. }
  split; [|split].
  - unfold decodeHostnameRequest.
    destruct (Decode_hostnameRequest (Body r) mk_hostnameRequest) as [req [e|]];
      reflexivity.
  - exact Hfail.
  - intros Hempty; apply Hfail.
    rewrite Hempty; apply Decode_hostnameRequest_EOF.
Qed.

Lemma hostname_route_requires_decodable_body_witness :
  snd (@Decode_hostnameRequest sample_json (Body (mk_http_Request "[")) mk_hostnameRequest)
    = Some SyntaxError
  /\ Body (mk_http_Request "") = ""
  /\ ServeHTTP (NewServer (makeHostnameEndpoint spyOSInfoService)
                  (@decodeHostnameRequest sample_json) encodeResponse)
       background (mk_http_Request "[") 0%nat
     = (Returned (ReplyFailure SyntaxError), 0%nat)
  /\ ServeHTTP (NewServer (makeHostnameEndpoint spyOSInfoService)
                  (@decodeHostnameRequest sample_json) encodeResponse)
       background (mk_http_Request "") 0%nat
     = (Returned (ReplyFailure io_EOF), 0%nat).
Proof.
  destruct (hostname_route_requires_decodable_body sample_json nat
              spyOSInfoService background (mk_http_Request "[") 0%nat)
    as (_ & Hbad & _).
  destruct (hostname_route_requires_decodable_body sample_json nat
              spyOSInfoService background (mk_http_Request "") 0%nat)
    as (_ & _ & Hempty).
  split; [reflexivity|]. split; [reflexivity|].
  split; [exact (proj2 (Hbad SyntaxError eq_refl)) | exact (proj2 (Hempty eq_refl))].
Defined.

(** ** The scenarios of the specification, run on the route table *)

Example post_uppercase_hi :
  post "/uppercase" (body_s "hi") sample_world
  = Some (Returned (ReplyBody [JObject [("v", JString "HI")]]), sample_world).
Proof. reflexivity. Qed.

Example post_uppercase_empty :
  post "/uppercase" (body_s "") sample_world
  = Some (Returned
            (ReplyBody [JObject [("v", JString ""); ("err", JString "empty string")]]),
          sample_world).
Proof. reflexivity. Qed.

Example post_count_hello :
  post "/count" (body_s "hello") sample_world
  = Some (Returned (ReplyBody [JObject [("v", JNumber 5)]]), sample_world).
Proof. reflexivity. Qed.

(** [len] counts bytes: the two-byte UTF-8 encoding of U+00E9 has length 2. *)
Example count_is_in_bytes :
  Count (@stringService ascii_strings World)
        (String (ascii_of_nat 195) (String (ascii_of_nat 169) EmptyString))
        sample_world
  = (2%Z, sample_world).
Proof. reflexivity. Qed.

Example post_hostname :
  post "/hostname" "{}" sample_world
  = Some (Returned (ReplyBody [JObject [("v", JString "build-host")]]), sample_world).
Proof. reflexivity. Qed.

Example post_hostname_empty_body :
  post "/hostname" "" sample_world
  = Some (Returned (ReplyFailure io_EOF), sample_world).
Proof. reflexivity. Qed.

Example spy_counts_one_call :
  snd (ServeHTTP (NewServer (makeHostnameEndpoint spyOSInfoService)
                    (@decodeHostnameRequest sample_json) encodeResponse)
         background (mk_http_Request "{}") 0%nat) = 1%nat.
Proof. reflexivity. Qed.

(** * Further properties of the transport binding and the capabilities *)

(** ** What the decode functions hand on (src/main.go:138-160) *)

Section DecodeResults.
Context {encoding_json : json_pkg}.
Variables (ctx : Context) (r : http_Request).

Lemma decodeUppercaseRequest_cases :
  (exists req err,
      Decode_uppercaseRequest (Body r) (mk_uppercaseRequest "") = (req, Some err)
      /\ decodeUppercaseRequest ctx r = (any_nil, Some err))
  \/ (exists req,
      Decode_uppercaseRequest (Body r) (mk_uppercaseRequest "") = (req, None)
      /\ decodeUppercaseRequest ctx r = (any_uppercaseRequest req, None)).
Proof.
  unfold decodeUppercaseRequest.
  destruct (Decode_uppercaseRequest (Body r) (mk_uppercaseRequest ""))
    as [req [err|]].
  - left; exists req, err; split; reflexivity.
  - right; exists req; split; reflexivity.
Qed.

Lemma decodeCountRequest_cases :
  (exists req err,
      Decode_countRequest (Body r) (mk_countRequest "") = (req, Some err)
      /\ decodeCountRequest ctx r = (any_nil, Some err))
  \/ (exists req,
      Decode_countRequest (Body r) (mk_countRequest "") = (req, None)
      /\ decodeCountRequest ctx r = (any_countRequest req, None)).
Proof.
  unfold decodeCountRequest.
  destruct (Decode_countRequest (Body r) (mk_countRequest "")) as [req [err|]].
  - left; exists req, err; split; reflexivity.
  - right; exists req; split; reflexivity.
Qed.

Lemma decodeHostnameRequest_cases :
  (exists req err,
      Decode_hostnameRequest (Body r) mk_hostnameRequest = (req, Some err)
      /\ decodeHostnameRequest ctx r = (any_nil, Some err))
  \/ (exists req,
      Decode_hostnameRequest (Body r) mk_hostnameRequest = (req, None)
      /\ decodeHostnameRequest ctx r = (any_hostnameRequest req, None)).
Proof.
  unfold decodeHostnameRequest.
  destruct (Decode_hostnameRequest (Body r) mk_hostnameRequest) as [req [err|]].
  - left; exists req, err; split; reflexivity.
  - right; exists req; split; reflexivity.
Qed.

(** A decode function that reports no error hands on a request of its own
    envelope type. *)
Lemma decodeUppercaseRequest_ok (request : any) :
  decodeUppercaseRequest ctx r = (request, None) ->
  exists req, request = any_uppercaseRequest req.
Proof.
  destruct decodeUppercaseRequest_cases as [(req & err & _ & E)|(req & _ & E)];
    rewrite E; intros H; [discriminate H|].
  injection H as <-; exists req; reflexivity.
Qed.

Lemma decodeCountRequest_ok (request : any) :
  decodeCountRequest ctx r = (request, None) ->
  exists req, request = any_countRequest req.
Proof.
  destruct decodeCountRequest_cases as [(req & err & _ & E)|(req & _ & E)];
    rewrite E; intros H; [discriminate H|].
  injection H as <-; exists req; reflexivity.
Qed.

Lemma decodeHostnameRequest_ok (request : any) :
  decodeHostnameRequest ctx r = (request, None) ->
  exists req, request = any_hostnameRequest req.
Proof.
  destruct decodeHostnameRequest_cases as [(req & err & _ & E)|(req & _ & E)];
    rewrite E; intros H; [discriminate H|].
  injection H as <-; exists req; reflexivity.
Qed.
End DecodeResults.


(** ** The wiring of [main] (src/main.go:110-136) *)



(** X3: the pairing matters.  A request handed on by the decode function of
    another route makes the uppercase endpoint, and likewise the count
    endpoint, panic at its type assertion although [uppercaseRequest] and
    [countRequest] have the same single field; the capability is not
    invoked (the state is unchanged, for every capability
    implementation). *)
Theorem foreign_decoder_makes_endpoint_panic :
  forall (encoding_json : json_pkg) (St : Type) (svc : StringService St)
         (ctx : Context) (r : http_Request) (request : any) (st : St),
    (decodeCountRequest ctx r = (request, None)
     \/ decodeHostnameRequest ctx r = (request, None) ->
     makeUppercaseEndpoint svc ctx request st
     = (Panicked (TypeAssertionError request "main.uppercaseRequest"), st))
    /\ (decodeUppercaseRequest ctx r = (request, None)
        \/ decodeHostnameRequest ctx r = (request, None) ->
        makeCountEndpoint svc ctx request st
        = (Panicked (TypeAssertionError request "main.countRequest"), st)).
Proof.
  intros encoding_json St svc ctx r request st; split; intros [Hdec|Hdec].
  - destruct (decodeCountRequest_ok ctx r request Hdec) as [req ->]; reflexivity.
  - destruct (decodeHostnameRequest_ok ctx r request Hdec) as [req ->]; reflexivity.
  - destruct (decodeUppercaseRequest_ok ctx r request Hdec) as [req ->]; reflexivity.
  - destruct (decodeHostnameRequest_ok ctx r request Hdec) as [req ->]; reflexivity.
Qed.

Lemma foreign_decoder_makes_endpoint_panic_witness :
  let r := mk_http_Request (body_s "hi") in
  @decodeCountRequest sample_json background r
  = (any_countRequest (mk_countRequest "hi"), None)
  /\ @decodeUppercaseRequest sample_json background r
     = (any_uppercaseRequest (mk_uppercaseRequest "hi"), None)
  /\ makeUppercaseEndpoint spyStringService background
       (any_countRequest (mk_countRequest "hi")) 0%nat
     = (Panicked (TypeAssertionError (any_countRequest (mk_countRequest "hi"))
                    "main.uppercaseRequest"), 0%nat)
  /\ makeCountEndpoint spyStringService background
       (any_uppercaseRequest (mk_uppercaseRequest "hi")) 0%nat
     = (Panicked (TypeAssertionError (any_uppercaseRequest (mk_uppercaseRequest "hi"))
                    "main.countRequest"), 0%nat).
Proof.
  intros r.
  split; [reflexivity|]. split; [reflexivity|]. split.
  - exact (proj1 (foreign_decoder_makes_endpoint_panic sample_json nat
                    spyStringService background r
                    (any_countRequest (mk_countRequest "hi")) 0%nat)
                 (or_introl eq_refl)).
  - exact (proj2 (foreign_decoder_makes_endpoint_panic sample_json nat
                    spyStringService background r
                    (any_uppercaseRequest (mk_uppercaseRequest "hi")) 0%nat)
                 (or_introl eq_refl)).
Defined.

(** ** The two methods of [stringService] (src/main.go:29-38) *)

Lemma length_app (s1 s2 : string) :
  String.length (s1 ++ s2) = (String.length s1 + String.length s2)%nat.
Proof.
  induction s1 as [|c s1 IH]; cbn; [reflexivity|].
  rewrite IH; reflexivity.
Qed.

Lemma length_zero (s : string) : String.length s = 0%nat <-> s = "".
Proof.
  destruct s as [|c s]; cbn; split; intros H;
    try reflexivity; discriminate H.
Qed.

(** X4: [Count] and [Uppercase] agree on what an empty input is: the count
    is never negative, it is 0 exactly for the empty string, and
    [Uppercase] reports its error exactly on the strings that [Count]
    measures as 0.  The count of a concatenation is the sum of the
    counts. *)
Theorem uppercase_fails_iff_count_is_zero :
  forall (strings : strings_pkg) (St : Type) (s : string) (st : St),
    (0 <= fst (Count stringService s st))%Z
    /\ (fst (Count stringService s st) = 0%Z <-> s = "")
    /\ (snd (fst (Uppercase stringService s st)) <> None
        <-> fst (Count stringService s st) = 0%Z)
    /\ (forall s' : string,
           fst (Count stringService (s ++ s') st)
           = (fst (Count stringService s st) + fst (Count stringService s' st))%Z).
Proof.
  intros strings St s st; cbn.
  assert (Hzero : Z.of_nat (String.length s) = 0%Z <-> s = "").
  { rewrite <- length_zero; lia. }
  split; [lia|]. split; [exact Hzero|]. split.
  - rewrite Hzero; unfold stringService_Uppercase.
    destruct (String.eqb_spec s "") as [->|Hs]; cbn.
    + split; [reflexivity | intros _; discriminate].
    + split; intros H; contradiction.
  - intros s'; rewrite length_app; lia.
Qed.

(** ** Errors whose text is empty (src/main.go:83-86, 102-105) *)

(** X5: an endpoint passes a capability error on only as its text.  For
    every capability implementation, when the method fails with error [e]
    the endpoint still returns a response with a nil transport error, and
    the encoded response has a member "err" exactly when the text of [e] is
    not empty; if the text is empty, the response is the very one a
    successful call with the same value would give, so the failure cannot
    be told from a success. *)
Theorem error_with_empty_text_is_lost :
  forall (St : Type) (svc : StringService St) (osvc : OSInfoService St)
         (ctx : Context) (request : any) (req : uppercaseRequest)
         (v : string) (e : error) (st st' : St),
    (Uppercase svc (uppercaseRequest_S req) st = ((v, Some e), st') ->
     returns_response
       (makeUppercaseEndpoint svc ctx (any_uppercaseRequest req) st)
       (any_uppercaseResponse (mk_uppercaseResponse v (Error e))) st'
     /\ (json_member "err"
           (json_Marshal (any_uppercaseResponse (mk_uppercaseResponse v (Error e))))
         = None <-> Error e = "")
     /\ (Error e = "" ->
         forall svc' : StringService St,
           Uppercase svc' (uppercaseRequest_S req) st = ((v, None), st') ->
           makeUppercaseEndpoint svc ctx (any_uppercaseRequest req) st
           = makeUppercaseEndpoint svc' ctx (any_uppercaseRequest req) st))
    /\ (Hostname osvc st = ((v, Some e), st') ->
        returns_response
          (makeHostnameEndpoint osvc ctx request st)
          (any_hostnameResponse (mk_hostnameResponse v (Error e))) st'
        /\ (json_member "err"
              (json_Marshal (any_hostnameResponse (mk_hostnameResponse v (Error e))))
            = None <-> Error e = "")
        /\ (Error e = "" ->
            forall osvc' : OSInfoService St,
              Hostname osvc' st = ((v, None), st') ->
              makeHostnameEndpoint osvc ctx request st
              = makeHostnameEndpoint osvc' ctx request st)).
Proof.
  intros St svc osvc ctx request req v e st st'.
  assert (Herr : forall x, json_lookup "err" (omitempty "err" x) = None <-> x = "").
  { intros x; unfold omitempty.
    destruct (String.eqb_spec x "") as [->|Hx]; cbn.
    - split; reflexivity.
    - split; [discriminate | intros H; contradiction]. }
  unfold returns_response; split; intros Hcall.
  - split; [|split].
    + rewrite makeUppercaseEndpoint_eq, Hcall; reflexivity.
    + cbn; apply Herr.
    + intros Hempty svc' Hcall'.
      rewrite !makeUppercaseEndpoint_eq, Hcall, Hcall'; cbn.
      rewrite Hempty; reflexivity.
  - split; [|split].
    + rewrite makeHostnameEndpoint_eq, Hcall; reflexivity.
    + cbn; apply Herr.
    + intros Hempty osvc' Hcall'.
      rewrite !makeHostnameEndpoint_eq, Hcall, Hcall'; cbn.
      rewrite Hempty; reflexivity.
Qed.

Lemma error_with_empty_text_is_lost_witness :
  Uppercase silentStringService "hi" 0%nat = (("hi", Some (errors_New "")), 1%nat)
  /\ Uppercase spyStringService "hi" 0%nat = (("hi", None), 1%nat)
  /\ Hostname silentOSInfoService 0%nat = (("spy", Some (errors_New "")), 1%nat)
  /\ Hostname spyOSInfoService 0%nat = (("spy", None), 1%nat)
  /\ makeUppercaseEndpoint silentStringService background
       (any_uppercaseRequest (mk_uppercaseRequest "hi")) 0%nat
     = makeUppercaseEndpoint spyStringService background
         (any_uppercaseRequest (mk_uppercaseRequest "hi")) 0%nat
  /\ makeHostnameEndpoint silentOSInfoService background any_nil 0%nat
     = makeHostnameEndpoint spyOSInfoService background any_nil 0%nat.
Proof.
  destruct (error_with_empty_text_is_lost nat silentStringService
              silentOSInfoService background any_nil (mk_uppercaseRequest "hi")
              "hi" (errors_New "") 0%nat 1%nat) as [Hu _].
  destruct (error_with_empty_text_is_lost nat silentStringService
              silentOSInfoService background any_nil (mk_uppercaseRequest "hi")
              "spy" (errors_New "") 0%nat 1%nat) as [_ Hh].
  split; [reflexivity|]. split; [reflexivity|].
  split; [reflexivity|]. split; [reflexivity|]. split.
  - exact (proj2 (proj2 (Hu eq_refl)) eq_refl spyStringService eq_refl).
  - exact (proj2 (proj2 (Hh eq_refl)) eq_refl spyOSInfoService eq_refl).
Defined.

(** ** The context argument (src/main.go:80, 91, 99, 138, 146, 154, 162) *)

(** X6: no function of the program consults its [context.Context]: the
    three endpoints, the three decode functions and the encode function
    give, with a cancelled context, the result they give with any other
    context.  In particular a call whose context is already cancelled still
    invokes the capability. *)
Theorem cancelled_context_is_not_honoured :
  forall (encoding_json : json_pkg) (St : Type)
         (svc : StringService St) (osvc : OSInfoService St)
         (ctx : Context) (request response : any) (r : http_Request)
         (w : http_ResponseWriter) (st : St),
    makeUppercaseEndpoint svc cancelled request st
    = makeUppercaseEndpoint svc ctx request st
    /\ makeCountEndpoint svc cancelled request st
       = makeCountEndpoint svc ctx request st
    /\ makeHostnameEndpoint osvc cancelled request st
       = makeHostnameEndpoint osvc ctx request st
    /\ decodeUppercaseRequest cancelled r = decodeUppercaseRequest ctx r
    /\ decodeCountRequest cancelled r = decodeCountRequest ctx r
    /\ decodeHostnameRequest cancelled r = decodeHostnameRequest ctx r
    /\ encodeResponse cancelled w response = encodeResponse ctx w response
    /\ (forall req : uppercaseRequest,
           snd (makeUppercaseEndpoint svc cancelled (any_uppercaseRequest req) st)
           = snd (Uppercase svc (uppercaseRequest_S req) st))
    /\ (forall req : countRequest,
           snd (makeCountEndpoint svc cancelled (any_countRequest req) st)
           = snd (Count svc (countRequest_S req) st))
    /\ snd (makeHostnameEndpoint osvc cancelled request st)
       = snd (Hostname osvc st).
Proof.
  intros encoding_json St svc osvc ctx request response r w st.
  repeat (split; [reflexivity|]).
  split; [|split].
  - intros req; rewrite makeUppercaseEndpoint_eq; reflexivity.
  - intros req; rewrite makeCountEndpoint_eq; reflexivity.
  - rewrite makeHostnameEndpoint_eq; reflexivity.
Qed.

(** ** Responses of the routes of [main] (src/main.go:29-34, 42-48, 79-107) *)

(** X7: with the capabilities that [main] wires, a response of the uppercase
    or of the hostname endpoint never carries both a value and an error:
    its [Err] field is empty, or it is the text "empty string" and then [V]
    is empty.  No other error text can reach a caller, whatever the request
    and whatever the host-name lookup reported. *)
Theorem responses_carry_value_or_empty_string_error :
  forall (strings : strings_pkg) (ctx : Context) (request : any) (w w' : World),
    (forall r : uppercaseResponse,
        returns_response (makeUppercaseEndpoint stringService ctx request w)
          (any_uppercaseResponse r) w' ->
        uppercaseResponse_Err r = ""
        \/ (uppercaseResponse_Err r = "empty string" /\ uppercaseResponse_V r = ""))
    /\ (forall r : hostnameResponse,
        returns_response (makeHostnameEndpoint osInfoService ctx request w)
          (any_hostnameResponse r) w' ->
        hostnameResponse_Err r = ""
        \/ (hostnameResponse_Err r = "empty string" /\ hostnameResponse_V r = "")).
Proof.
  intros strings ctx request w w'; unfold returns_response; split; intros r.
  - destruct request as [| req | | | | | | |]; try (cbn; discriminate).
    rewrite makeUppercaseEndpoint_eq.
    destruct (String.eqb_spec (uppercaseRequest_S req) "") as [E|E].
    + rewrite E, Uppercase_empty; cbn; intros H; injection H as <- _.
      right; split; reflexivity.
    + rewrite (Uppercase_nonempty _ w E); cbn; intros H; injection H as <- _.
      left; reflexivity.
  - rewrite makeHostnameEndpoint_eq; cbn.
    unfold osInfoService_Hostname, os_Hostname.
    destruct (os_hostname w) as [name [e|]]; cbn; intros H; injection H as <- _.
    + right; split; reflexivity.
    + left; reflexivity.
Qed.

Lemma responses_carry_value_or_empty_string_error_witness :
  returns_response
    (makeUppercaseEndpoint (@stringService ascii_strings World) background
       (any_uppercaseRequest (mk_uppercaseRequest "")) sample_world)
    (any_uppercaseResponse (mk_uppercaseResponse "" "empty string")) sample_world
  /\ returns_response
       (makeHostnameEndpoint osInfoService background any_nil nameless_world)
       (any_hostnameResponse (mk_hostnameResponse "" "empty string")) nameless_world
  /\ (uppercaseResponse_Err (mk_uppercaseResponse "" "empty string") = ""
      \/ (uppercaseResponse_Err (mk_uppercaseResponse "" "empty string")
          = "empty string"
          /\ uppercaseResponse_V (mk_uppercaseResponse "" "empty string") = ""))
  /\ (hostnameResponse_Err (mk_hostnameResponse "" "empty string") = ""
      \/ (hostnameResponse_Err (mk_hostnameResponse "" "empty string")
          = "empty string"
          /\ hostnameResponse_V (mk_hostnameResponse "" "empty string") = "")).
Proof.
  destruct (responses_carry_value_or_empty_string_error ascii_strings background
              (any_uppercaseRequest (mk_uppercaseRequest ""))
              sample_world sample_world) as [Hu _].
  destruct (responses_carry_value_or_empty_string_error ascii_strings background
              any_nil nameless_world nameless_world) as [_ Hh].
  split; [reflexivity|]. split; [reflexivity|].
  split.
  - exact (Hu (mk_uppercaseResponse "" "empty string") eq_refl).
  - exact (Hh (mk_hostnameResponse "" "empty string") eq_refl).
Defined.
